(** * Weight history reconstruction (WeightHistoryScreen)

    A shallow embedding of the data transformation performed by
    [loadWeightData] and [calculateStats] of the weight history screen:
    enumeration of the days of the selected range, lookup of the daily logs
    by date, the carry pass from the newest to the oldest day, the profile
    weight fallback with the final filter, and the summary statistics.

    Modelling conventions.
    - A JavaScript [number] holding a weight is an exact rational ([Qc]);
      NaN, the infinities, the sign of zero and rounding are outside the model.
    - A value that may be [undefined], [null] or a number is a [jsnum].
    - A [Date] is represented by the number of its calendar day (days since
      1970-01-01).  [startDate] is derived from [now] with [setDate], so both
      carry the same time of day and [currentDate <= now] compares day numbers;
      the time zone is taken to be UTC.
    - The [Map] keyed by the date string is a [gmap string DailyLog]. *)

From Stdlib Require Import ZArith QArith Qcanon Qcabs Ascii String.
From stdpp Require Import gmap strings list list_numbers.

Local Open Scope Z_scope.

(** ** JavaScript values *)

Inductive jsnum : Type :=
  | undefined
  | null
  | num (x : Qc).

Definition Qc_ltb (x y : Qc) : bool :=
  match (x ?= y)%Qc with Lt => true | _ => false end.

Definition Qc_eqb (x y : Qc) : bool :=
  match (x ?= y)%Qc with Eq => true | _ => false end.

Definition jsnum_eq_dec (a b : jsnum) : {a = b} + {a <> b}.
Proof. decide equality. apply Qc_eq_dec. Defined.

(** [v !== null] *)
Definition not_null (v : jsnum) : bool :=
  match v with null => false | _ => true end.

(** [v !== undefined] *)
Definition not_undefined (v : jsnum) : bool :=
  match v with undefined => false | _ => true end.

(** Truthiness of a value: [undefined], [null] and [0] are falsy. *)
Definition truthy (v : jsnum) : bool :=
  match v with
  | num x => negb (Qc_eqb x 0%Qc)
  | _ => false
  end.

(** [a || b] *)
Definition js_or (a b : jsnum) : jsnum := if truthy a then a else b.

(** Truthiness of an optional string: absent and the empty string are falsy. *)
Definition truthy_str (s : option string) : bool :=
  match s with
  | Some EmptyString => false
  | Some _ => true
  | None => false
  end.

(** ** Calendar days and their renderings *)

Module JSDate.

(** Year, month (1..12) and day of month of a day number, for the proleptic
    Gregorian calendar. *)
Definition civil (z0 : Z) : Z * Z * Z :=
  let z := z0 + 719468 in
  let era := z / 146097 in
  let doe := z - era * 146097 in
  let yoe := (doe - doe / 1460 + doe / 36524 - doe / 146096) / 365 in
  let doy := doe - (365 * yoe + yoe / 4 - yoe / 100) in
  let mp := (5 * doy + 2) / 153 in
  let d := doy - (153 * mp + 2) / 5 + 1 in
  let m := if mp <? 10 then mp + 3 else mp - 9 in
  let y := yoe + era * 400 + (if m <=? 2 then 1 else 0) in
  (y, m, d).

Definition digit (n : Z) : ascii :=
  ascii_of_nat (48 + Z.to_nat (n mod 10)).

Definition pad2 (n : Z) : string :=
  String (digit (n / 10)) (String (digit n) EmptyString).

Definition pad4 (n : Z) : string :=
  String (digit (n / 1000)) (String (digit (n / 100)) (pad2 n)).

(** [dateObj.toISOString().split('T')[0]], years 0000 to 9999. *)
Definition toISODate (day : Z) : string :=
  let '(y, m, d) := civil day in
  (pad4 y +:+ "-" +:+ pad2 m +:+ "-" +:+ pad2 d)%string.

(** [`${day}.${month}.`] with both parts padded to two digits. *)
Definition formatLabel (day : Z) : string :=
  let '(_, m, d) := civil day in
  (pad2 d +:+ "." +:+ pad2 m +:+ ".")%string.

End JSDate.

(** ** Data model *)

(** A daily log as delivered by [getDailyLogs]; only the fields read by the
    screen. *)
Record DailyLog : Type := mkLog {
  log_date : option string;
  log_weight : jsnum
}.

(** The profile as delivered by [fetchUserProfile]. *)
Record UserProfile : Type := mkProfile {
  profile_weight : jsnum
}.

(** The intermediate points of steps 1 and 2. *)
Record Point : Type := mkPoint {
  date : string;
  formattedDate : string;
  weight : jsnum;
  hasActualWeight : bool
}.

(** The points stored in [weightData]. *)
Record WeightDataPoint : Type := mkWeightDataPoint {
  wd_date : string;
  wd_formattedDate : string;
  wd_weight : jsnum
}.

(** ** [loadWeightData], step by step *)

(** [logs.filter(log => log.date).forEach(log => logsByDate.set(log.date, log))] *)
Definition setLog (m : gmap string DailyLog) (log : DailyLog) : gmap string DailyLog :=
  match log_date log with
  | Some k => <[k := log]> m
  | None => m
  end.

Definition logsByDate (logs : list DailyLog) : gmap string DailyLog :=
  foldl setLog ∅ (List.filter (λ log, truthy_str (log_date log)) logs).

(** The [while (currentDate <= now)] loop; [fuel] bounds the iterations. *)
Fixpoint allDaysLoop (fuel : nat) (currentDate now : Z) : list Z :=
  match fuel with
  | O => []
  | S fuel' =>
      if currentDate <=? now
      then currentDate :: allDaysLoop fuel' (currentDate + 1) now
      else []
  end.

Definition allDaysInRange (startDate now : Z) : list Z :=
  allDaysLoop (Z.to_nat (now - startDate + 1)) startDate now.

(** [log?.weight] for the result of [logsByDate.get(dateStr)]. *)
Definition optWeight (log : option DailyLog) : jsnum :=
  match log with
  | Some l => log_weight l
  | None => undefined
  end.

(** [log?.weight !== undefined && log?.weight !== null] *)
Definition isActual (w : jsnum) : bool := not_undefined w && not_null w.

(** Step 1: one point per day. *)
Definition initialPoint (byDate : gmap string DailyLog) (dateObj : Z) : Point :=
  let dateStr := JSDate.toISODate dateObj in
  let log := byDate !! dateStr in
  {| date := dateStr;
     formattedDate := JSDate.formatLabel dateObj;
     weight := if isActual (optWeight log) then optWeight log else null;
     hasActualWeight := isActual (optWeight log) |}.

Definition initialPoints (byDate : gmap string DailyLog) (days : list Z) : list Point :=
  map (initialPoint byDate) days.

Definition setWeight (point : Point) (w : jsnum) : Point :=
  {| date := date point;
     formattedDate := formattedDate point;
     weight := w;
     hasActualWeight := hasActualWeight point |}.

(** Step 2: the [forEach] over [reversedPoints], threading [lastKnownWeight]. *)
Fixpoint carryForward (lastKnownWeight : jsnum) (points : list Point) : list Point :=
  match points with
  | [] => []
  | point :: rest =>
      if hasActualWeight point then
        point :: carryForward (weight point) rest
      else if not_null lastKnownWeight then
        setWeight point lastKnownWeight :: carryForward lastKnownWeight rest
      else
        point :: carryForward lastKnownWeight rest
  end.

Definition reversedPoints (points : list Point) : list Point :=
  carryForward null (rev points).

(** Step 3: fallback to the profile weight, then the filter. *)
Definition withFallback (defaultWeight : jsnum) (point : Point) : WeightDataPoint :=
  {| wd_date := date point;
     wd_formattedDate := formattedDate point;
     wd_weight := if not_null (weight point) then weight point else defaultWeight |}.

Definition hasWeight (point : WeightDataPoint) : bool :=
  not_null (wd_weight point) && not_undefined (wd_weight point).

Definition weightPoints (defaultWeight : jsnum) (reversed : list Point) : list WeightDataPoint :=
  List.filter hasWeight (map (withFallback defaultWeight) (rev reversed)).

(** The series computed by one run of [loadWeightData] for the range
    [startDate .. now], the delivered logs and the current [defaultWeight]. *)
Definition build (startDate now : Z) (logs : list DailyLog) (defaultWeight : jsnum)
  : list WeightDataPoint :=
  let byDate := logsByDate logs in
  let days := allDaysInRange startDate now in
  weightPoints defaultWeight (reversedPoints (initialPoints byDate days)).

(** ** Screen state and the effect that reloads it *)

(** The state cells of the screen that take part in the computation. *)
Record Screen : Type := mkScreen {
  weightData : list WeightDataPoint;
  defaultWeight : jsnum;
  timeRange : Z
}.


(** [userProfile?.weight] *)
Definition optProfileWeight (userProfile : option UserProfile) : jsnum :=
  match userProfile with
  | Some p => profile_weight p
  | None => undefined
  end.

(** One run of [loadWeightData]: the closure reads [defaultWeight] and
    [timeRange] of the render it belongs to; [setDefaultWeight] and
    [setWeightData] take effect in the next render. *)
Definition loadWeightData (userProfile : option UserProfile) (now : Z)
    (logs : list DailyLog) (s : Screen) : Screen :=
  {| weightData := build (now - timeRange s) now logs (defaultWeight s);
     defaultWeight := js_or (optProfileWeight userProfile) null;
     timeRange := timeRange s |}.

(** [useEffect(() => { loadWeightData(); }, [timeRange, defaultWeight])]:
    the effect runs again while a dependency differs from the previous
    render. *)
Definition depsChanged (s s' : Screen) : bool :=
  negb (Z.eqb (timeRange s) (timeRange s')) ||
  (if jsnum_eq_dec (defaultWeight s) (defaultWeight s') then false else true).

Fixpoint runEffect (fuel : nat) (userProfile : option UserProfile) (now : Z)
    (logs : list DailyLog) (s : Screen) : Screen :=
  match fuel with
  | O => s
  | S fuel' =>
      let s' := loadWeightData userProfile now logs s in
      if depsChanged s s' then runEffect fuel' userProfile now logs s' else s'
  end.

(** ** [calculateStats] *)

Inductive Trend : Type := neutral | down | up.

Record Stats : Type := mkStats {
  stats_start : Qc;
  stats_end : Qc;
  stats_change : Qc;
  stats_trend : Trend
}.

(** [weightData[i]?.weight] *)
Definition pointWeight (p : option WeightDataPoint) : jsnum :=
  match p with
  | Some x => wd_weight x
  | None => undefined
  end.

(** [v || 0], which is always a number. *)
Definition or_zero (v : jsnum) : Qc :=
  match js_or v (num 0%Qc) with
  | num x => x
  | _ => 0%Qc
  end.

Definition calculateStats (weightData : list WeightDataPoint) : Stats :=
  if Nat.eqb (length weightData) 0 then
    {| stats_start := 0%Qc; stats_end := 0%Qc; stats_change := 0%Qc;
       stats_trend := neutral |}
  else
    let startWeight := or_zero (pointWeight (weightData !! 0%nat)) in
    let endWeight := or_zero (pointWeight (weightData !! (length weightData - 1)%nat)) in
    let change := (endWeight - startWeight)%Qc in
    let trend :=
      if Qc_ltb change 0%Qc then down
      else if Qc_ltb 0%Qc change then up
      else neutral in
    {| stats_start := startWeight;
       stats_end := endWeight;
       stats_change := Qcabs change;
       stats_trend := trend |}.

(** ** Observations about a run, used to state the properties *)

(** Day [d] is anchored: its log carries a weight. *)
Definition anchored (logs : list DailyLog) (d : Z) : bool :=
  hasActualWeight (initialPoint (logsByDate logs) d).

(** The weight of the point of day [d] before the carry pass. *)
Definition anchorWeight (logs : list DailyLog) (d : Z) : jsnum :=
  weight (initialPoint (logsByDate logs) d).

(** The points after the carry pass, oldest first. *)
Definition carried (startDate now : Z) (logs : list DailyLog) : list Point :=
  rev (reversedPoints (initialPoints (logsByDate logs) (allDaysInRange startDate now))).

(** The weight of day [d] after the carry pass. *)
Definition carriedWeight (startDate now : Z) (logs : list DailyLog) (d : Z) : option jsnum :=
  weight <$> carried startDate now logs !! Z.to_nat (d - startDate).

(** A fallback weight is present when it is a number. *)
Definition present (defaultWeight : jsnum) : Prop := exists w, defaultWeight = num w.

(** The entry is dated on a day of the range. *)
Definition inRange (startDate now : Z) (log : DailyLog) : bool :=
  existsb (fun d => if decide (log_date log = Some (JSDate.toISODate d)) then true else false)
          (allDaysInRange startDate now).

(** The entry is dated [k]. *)
Definition datedOn (k : string) (log : DailyLog) : bool :=
  if decide (log_date log = Some k) then true else false.

(** ** Auxiliary functions for the proofs *)

(** The value of [lastKnownWeight] after the points have been visited. *)
Fixpoint lastKnown (lastKnownWeight : jsnum) (points : list Point) : jsnum :=
  match points with
  | [] => lastKnownWeight
  | point :: rest =>
      lastKnown (if hasActualWeight point then weight point else lastKnownWeight) rest
  end.

(** The weight of the first anchored point of a list, [null] if there is none. *)
Fixpoint nextKnown (points : list Point) : jsnum :=
  match points with
  | [] => null
  | point :: rest => if hasActualWeight point then weight point else nextKnown rest
  end.

(** The carry pass read from the oldest day to the newest. *)
Fixpoint fillBack (points : list Point) : list Point :=
  match points with
  | [] => []
  | point :: rest =>
      (if hasActualWeight point then point
       else if not_null (nextKnown rest) then setWeight point (nextKnown rest)
       else point) :: fillBack rest
  end.

(** The weight of the first anchored day from [d] to [now]. *)
Definition nextAnchor (logs : list DailyLog) (d now : Z) : jsnum :=
  nextKnown (initialPoints (logsByDate logs) (seqZ d (now - d + 1))).

(** The point emitted for day [d], before the filter. *)
Definition resolvedPoint (logs : list DailyLog) (now : Z) (defaultWeight : jsnum) (d : Z)
  : WeightDataPoint :=
  withFallback defaultWeight
    (setWeight (initialPoint (logsByDate logs) d) (nextAnchor logs d now)).

(** Points as step 1 produces them. *)
Definition wfPoint (p : Point) : Prop :=
  if hasActualWeight p then exists w, weight p = num w else weight p = null.


(** ** The chart of the weight history screen *)

(** The points handed to the line chart. *)
Record DataPoint : Type := mkDataPoint {
  dp_x : Z;
  dp_weight : jsnum;
  dateLabel : string
}.

(** [prepareChartData]: the x value is the 1-based index. *)
Definition prepareChartData (weightData : list WeightDataPoint) : list DataPoint :=
  if Nat.eqb (length weightData) 0 then []
  else imap (fun index point =>
               {| dp_x := Z.of_nat index + 1;
                  dp_weight := wd_weight point;
                  dateLabel := wd_formattedDate point |}) weightData.

(** [array[i]] for an integral number [i]: [undefined] below zero and from the
    length on. *)
Definition at_index {A : Type} (l : list A) (i : Z) : option A :=
  if 0 <=? i then l !! Z.to_nat i else None.

(** [a || b] on strings. *)
Definition str_or (a : option string) (b : string) : string :=
  match a with
  | Some v => if truthy_str a then v else b
  | None => b
  end.

(** The tick format of the x axis:
    [chartData[x - 1]?.dateLabel || ''] *)
Definition tickFormat (chartData : list DataPoint) (x : Z) : string :=
  str_or (dateLabel <$> at_index chartData (x - 1)) "".





(** ** Outcomes of awaited calls *)

(** What [await] yields: the call rejected (threw), or resolved to a value. *)
Inductive Promise (A : Type) : Type :=
  | Rejected
  | Resolved (value : A).

Arguments Rejected {A}.
Arguments Resolved {A} value.

(** ** The nutrition report screen *)

Module NutritionReport.

Section WithGoals.

(** The goals object; the screen only passes it on. *)
Context {UserGoals : Type}.

(** The profile as this screen reads it: [profile.goals]. *)
Record Profile : Type := mkProfile {
  goals : option UserGoals
}.

Record State : Type := mkState {
  isLoading : bool;
  userProfile : option Profile;
  userGoals : option UserGoals
}.

(** [useState(true)], [useState(null)], [useState(null)] *)
Definition initialState : State :=
  {| isLoading := true; userProfile := None; userGoals := None |}.

(** [route.params?.days || 30] *)
Definition daysOf (params : option jsnum) : jsnum :=
  js_or (match params with Some d => d | None => undefined end) (num (Q2Qc 30)).

(** [profile?.goals] *)
Definition profileGoals (profile : option Profile) : option UserGoals :=
  match profile with
  | Some p => goals p
  | None => None
  end.

(** The [finally] block. *)
Definition finish (s : State) : State :=
  {| isLoading := false; userProfile := userProfile s; userGoals := userGoals s |}.

(** [loadData] for given outcomes of [fetchUserProfile] and [fetchUserGoals];
    a rejection leaves the [try] block at that call. *)
Definition loadData (profileResult : Promise (option Profile))
    (goalsResult : Promise (option (list UserGoals))) (s : State) : State :=
  let s0 := {| isLoading := true; userProfile := userProfile s; userGoals := userGoals s |} in
  match profileResult with
  | Rejected => finish s0
  | Resolved profile =>
      let s1 := {| isLoading := isLoading s0; userProfile := profile;
                   userGoals := userGoals s0 |} in
      match goalsResult with
      | Rejected => finish s1
      | Resolved fetched =>
          match fetched with
          | Some (first :: _) =>
              finish {| isLoading := isLoading s1; userProfile := userProfile s1;
                        userGoals := Some first |}
          | _ =>
              match profileGoals profile with
              | Some g =>
                  finish {| isLoading := isLoading s1; userProfile := userProfile s1;
                            userGoals := Some g |}
              | None => finish s1
              end
          end
      end
  end.

(** What the screen renders. *)
Inductive View : Type :=
  | LoadingScreen
  | Report (profile : option Profile) (g : UserGoals) (days : jsnum).

Definition render (params : option jsnum) (s : State) : View :=
  match isLoading s, userGoals s with
  | false, Some g => Report (userProfile s) g (daysOf params)
  | _, _ => LoadingScreen
  end.

End WithGoals.

Arguments Profile : clear implicits.
Arguments State : clear implicits.
Arguments View : clear implicits.

End NutritionReport.

(** ** Server start-up *)

Module InitServer.

Inductive Event : Type :=
  | ConsoleLog (message : string)
  | ConsoleError (message : string)
  | TestConnection
  | InitializeDatabase
  | ProcessExit (code : Z).

(** How the call ends: it returns, the process exits, or the promise rejects
    because an awaited call rejected. *)
Inductive Outcome : Type :=
  | Returned
  | Exited (code : Z)
  | Threw.

Definition connectFailed : string :=
  "Failed to connect to database. Please check your configuration.".
Definition schemaFailed : string :=
  "Failed to initialize database schema. Please check the error logs.".
Definition completed : string :=
  "Server initialization completed successfully.".

(** [initServer] for given outcomes of [testConnection] and
    [initializeDatabase]: the calls made and messages written, in order, and
    how the call ends. *)
Definition initServer (isConnected initialized : Promise bool) : list Event * Outcome :=
  let start := [ConsoleLog "Initializing server..."; TestConnection] in
  match isConnected with
  | Rejected => (start, Threw)
  | Resolved false => (start ++ [ConsoleError connectFailed; ProcessExit 1], Exited 1)
  | Resolved true =>
      match initialized with
      | Rejected => (start ++ [InitializeDatabase], Threw)
      | Resolved false =>
          (start ++ [InitializeDatabase; ConsoleError schemaFailed; ProcessExit 1],
           Exited 1)
      | Resolved true =>
          (start ++ [InitializeDatabase; ConsoleLog completed], Returned)
      end
  end.

End InitServer.

(** ** The start-up effect of the application *)

Module App.

Inductive Event : Type :=
  | ConfigureHealthKitForIOS
  | ConfigureGoogleFitForAndroid
  | ConfigureNotifications
  | LoadWaterReminderSettings
  | ScheduleWaterReminders
  | ConsoleError.

Record WaterSettings : Type := mkWaterSettings {
  enabled : bool
}.

(** The collaborators of the effect: the platform, whether
    [configureNotifications] returns, what [loadWaterReminderSettings]
    resolves to ([None] for [null] or [undefined]), and whether
    [scheduleWaterReminders] resolves. *)
Record Env : Type := mkEnv {
  OS : string;
  configureReturns : bool;
  waterSettings : Promise (option WaterSettings);
  scheduleResolves : bool
}.

(** The platform branch. *)
Definition configureHealth (os : string) : list Event :=
  if String.eqb os "ios" then [ConfigureHealthKitForIOS]
  else if String.eqb os "android" then [ConfigureGoogleFitForAndroid]
  else [].

(** [setupNotifications]: every failure inside the [try] block is caught and
    logged. *)
Definition setupNotifications (env : Env) : list Event :=
  if negb (configureReturns env) then [ConfigureNotifications; ConsoleError]
  else
    match waterSettings env with
    | Rejected => [ConfigureNotifications; LoadWaterReminderSettings; ConsoleError]
    | Resolved None => [ConfigureNotifications; LoadWaterReminderSettings; ConsoleError]
    | Resolved (Some settings) =>
        if enabled settings then
          [ConfigureNotifications; LoadWaterReminderSettings; ScheduleWaterReminders]
          ++ (if scheduleResolves env then [] else [ConsoleError])
        else [ConfigureNotifications; LoadWaterReminderSettings]
    end.

(** The effect run once on mount; the health configuration calls return. *)
Definition effect (env : Env) : list Event :=
  configureHealth (OS env) ++ setupNotifications env.

End App.

(** ** Sample inputs *)

Module Sample.

(** A weight given as a fraction. *)
Definition kg (n : Z) (d : positive) : jsnum := num (Q2Qc (Qmake n d)).

(** 2024-01-01, 2024-01-02 and 2024-01-03 as day numbers. *)
Definition D1 : Z := 19723.
Definition D2 : Z := 19724.
Definition D3 : Z := 19725.

Definition onD2 : list DailyLog := [mkLog (Some "2024-01-02") (kg 80 1)].
Definition onD3 : list DailyLog := [mkLog (Some "2024-01-03") (kg 80 1)].
Definition both : list DailyLog :=
  [mkLog (Some "2024-01-01") (kg 68 1); mkLog (Some "2024-01-02") (kg 139 2)].

(** Two entries delivered for 2024-01-01, the second without a weight. *)
Definition weighed : DailyLog := mkLog (Some "2024-01-01") (kg 70 1).
Definition unweighed : DailyLog := mkLog (Some "2024-01-01") null.


End Sample.

Ltac unfold_days := unfold Sample.D1, Sample.D2, Sample.D3 in *.

(** ** The range of days *)

Lemma allDaysLoop_seqZ (fuel : nat) (c now : Z) :
  now - c + 1 <= Z.of_nat fuel ->
  allDaysLoop fuel c now = seqZ c (now - c + 1).
Proof.
  revert c. induction fuel as [|fuel IH]; intros c Hf.
  - simpl. symmetry. apply seqZ_nil. lia.
  - simpl. destruct (Z.leb_spec c now) as [Hle|Hgt].
    + rewrite (seqZ_cons c) by lia. f_equal.
      rewrite IH by lia. f_equal. lia.
    + symmetry. apply seqZ_nil. lia.
Qed.


Lemma allDaysInRange_seqZ (startDate now : Z) :
  allDaysInRange startDate now = seqZ startDate (now - startDate + 1).
Proof. unfold allDaysInRange. apply allDaysLoop_seqZ. lia. Qed.


(** ** The carry pass *)

Lemma carryForward_app (lk : jsnum) (xs ys : list Point) :
  carryForward lk (xs ++ ys) = carryForward lk xs ++ carryForward (lastKnown lk xs) ys.
Proof.
  revert lk. induction xs as [|x xs IH]; intros lk; simpl; [reflexivity|].
  destruct (hasActualWeight x); simpl.
  - by rewrite IH.
  - destruct (not_null lk); simpl; by rewrite IH.
Qed.

Lemma lastKnown_app (lk : jsnum) (xs ys : list Point) :
  lastKnown lk (xs ++ ys) = lastKnown (lastKnown lk xs) ys.
Proof. revert lk. induction xs as [|x xs IH]; intros lk; simpl; auto. Qed.

Lemma lastKnown_rev (ps : list Point) :
  lastKnown null (rev ps) = nextKnown ps.
Proof.
  induction ps as [|p ps IH]; simpl; [reflexivity|].
  rewrite lastKnown_app. simpl. by rewrite IH.
Qed.

Lemma reversedPoints_fillBack (ps : list Point) :
  rev (reversedPoints ps) = fillBack ps.
Proof.
  unfold reversedPoints. induction ps as [|p ps IH]; simpl; [reflexivity|].
  rewrite carryForward_app, rev_app_distr, IH, lastKnown_rev. simpl.
  destruct (hasActualWeight p); [reflexivity|].
  destruct (not_null (nextKnown ps)); reflexivity.
Qed.

Lemma setWeight_same (p : Point) : setWeight p (weight p) = p.
Proof. by destruct p. Qed.

Lemma fillBack_head (p : Point) (rest : list Point) :
  wfPoint p ->
  (if hasActualWeight p then p
   else if not_null (nextKnown rest) then setWeight p (nextKnown rest) else p)
  = setWeight p (nextKnown (p :: rest)).
Proof.
  unfold wfPoint. simpl. destruct (hasActualWeight p); intros Hwf.
  - by rewrite setWeight_same.
  - destruct (nextKnown rest) eqn:E; simpl; try reflexivity.
    by rewrite <- Hwf, setWeight_same.
Qed.

Lemma initialPoint_wf (byDate : gmap string DailyLog) (d : Z) :
  wfPoint (initialPoint byDate d).
Proof.
  unfold wfPoint, initialPoint. simpl.
  destruct (optWeight (byDate !! JSDate.toISODate d)); simpl; eauto.
Qed.

Lemma fillBack_days (byDate : gmap string DailyLog) (n : nat) (s : Z) :
  fillBack (initialPoints byDate (seqZ s (Z.of_nat n))) =
  map (fun d => setWeight (initialPoint byDate d)
                 (nextKnown (initialPoints byDate (seqZ d (s + Z.of_nat n - d)))))
      (seqZ s (Z.of_nat n)).
Proof.
  revert s. induction n as [|n IH]; intros s.
  - reflexivity.
  - rewrite (seqZ_cons s) by lia.
    replace (Z.pred (Z.of_nat (S n))) with (Z.of_nat n) by lia.
    unfold initialPoints in *. cbn [map fillBack].
    rewrite fillBack_head by apply initialPoint_wf.
    f_equal.
    + f_equal. replace (s + Z.of_nat (S n) - s) with (Z.of_nat (S n)) by lia.
      rewrite (seqZ_cons s) by lia.
      replace (Z.pred (Z.of_nat (S n))) with (Z.of_nat n) by lia. reflexivity.
    + rewrite IH. apply map_ext. intros d. do 4 f_equal. lia.
Qed.

Lemma carried_days (startDate now : Z) (logs : list DailyLog) :
  carried startDate now logs =
  map (fun d => setWeight (initialPoint (logsByDate logs) d) (nextAnchor logs d now))
      (seqZ startDate (now - startDate + 1)).
Proof.
  unfold carried. rewrite reversedPoints_fillBack, allDaysInRange_seqZ.
  destruct (Z.le_gt_cases 0 (now - startDate + 1)) as [Hn|Hn].
  - rewrite <- (Z2Nat.id (now - startDate + 1)) by lia.
    rewrite fillBack_days. apply map_ext. intros d.
    unfold nextAnchor. do 4 f_equal. lia.
  - rewrite seqZ_nil by lia. reflexivity.
Qed.

(** [build] as a filter over the days of the range. *)
Lemma build_days (startDate now : Z) (logs : list DailyLog) (dw : jsnum) :
  build startDate now logs dw =
  List.filter hasWeight
    (map (resolvedPoint logs now dw) (seqZ startDate (now - startDate + 1))).
Proof.
  unfold build, weightPoints.
  change (rev (reversedPoints (initialPoints (logsByDate logs) (allDaysInRange startDate now))))
    with (carried startDate now logs).
  rewrite carried_days, map_map. reflexivity.
Qed.

Lemma map_lookup_seqZ {A : Type} (f : Z -> A) (s n d : Z) :
  s <= d < s + n ->
  map f (seqZ s n) !! Z.to_nat (d - s) = Some (f d).
Proof.
  intros Hd. change (map f (seqZ s n)) with (f <$> seqZ s n).
  rewrite list_lookup_fmap, lookup_seqZ_lt by lia.
  simpl. f_equal. f_equal. lia.
Qed.

Lemma carriedWeight_nextAnchor (startDate now : Z) (logs : list DailyLog) (d : Z) :
  startDate <= d <= now ->
  carriedWeight startDate now logs d = Some (nextAnchor logs d now).
Proof.
  intros Hd. unfold carriedWeight.
  rewrite carried_days, map_lookup_seqZ by lia. reflexivity.
Qed.

(** ** The first anchored day from a day on *)

Lemma nextAnchor_step (logs : list DailyLog) (d now : Z) :
  d <= now ->
  nextAnchor logs d now =
  if anchored logs d then anchorWeight logs d else nextAnchor logs (d + 1) now.
Proof.
  intros Hd. unfold nextAnchor, anchored, anchorWeight.
  rewrite (seqZ_cons d) by lia. unfold initialPoints. cbn [map nextKnown].
  destruct (hasActualWeight _); [reflexivity|].
  do 3 f_equal; lia.
Qed.

Lemma nextAnchor_empty (logs : list DailyLog) (d now : Z) :
  now < d -> nextAnchor logs d now = null.
Proof. intros Hd. unfold nextAnchor. rewrite seqZ_nil by lia. reflexivity. Qed.

Lemma anchored_num (logs : list DailyLog) (d : Z) :
  anchored logs d = true -> exists w, anchorWeight logs d = num w.
Proof.
  unfold anchored, anchorWeight. intros H.
  pose proof (initialPoint_wf (logsByDate logs) d) as Hwf.
  unfold wfPoint in Hwf. by rewrite H in Hwf.
Qed.

Lemma unanchored_null (logs : list DailyLog) (d : Z) :
  anchored logs d = false -> anchorWeight logs d = null.
Proof.
  unfold anchored, anchorWeight. intros H.
  pose proof (initialPoint_wf (logsByDate logs) d) as Hwf.
  unfold wfPoint in Hwf. by rewrite H in Hwf.
Qed.

(** Induction on the number of days left in the range. *)
Lemma range_ind (now : Z) (P : Z -> Prop) :
  (forall d, now < d -> P d) ->
  (forall d, d <= now -> P (d + 1) -> P d) ->
  forall d, P d.
Proof.
  intros Hbase Hstep d.
  remember (Z.to_nat (now - d + 1)) as n eqn:Hn.
  revert d Hn. induction n as [|n IH]; intros d Hn.
  - apply Hbase. lia.
  - apply Hstep; [lia|]. apply IH. lia.
Qed.

Lemma nextAnchor_none (logs : list DailyLog) (now d : Z) :
  (forall k, d <= k <= now -> anchored logs k = false) ->
  nextAnchor logs d now = null.
Proof.
  revert d. apply (range_ind now (fun d => _ -> nextAnchor logs d now = null)).
  - intros d Hd _. by apply nextAnchor_empty.
  - intros d Hd IH Hun. rewrite nextAnchor_step by lia.
    rewrite Hun by lia. apply IH. intros k Hk. apply Hun. lia.
Qed.


(** The carry finds a weight exactly when some day from [d] on is anchored. *)
Lemma nextAnchor_not_null (logs : list DailyLog) (now d : Z) :
  not_null (nextAnchor logs d now) = true <->
  exists n, d <= n <= now /\ anchored logs n = true.
Proof.
  revert d. apply (range_ind now (fun d => _ <-> _)).
  - intros d Hd. rewrite nextAnchor_empty by lia. simpl.
    split; [discriminate|]. intros (n & Hn & _). lia.
  - intros d Hd IH. rewrite nextAnchor_step by lia.
    destruct (anchored logs d) eqn:Ha.
    + destruct (anchored_num _ _ Ha) as [w ->]. simpl.
      split; [|reflexivity]. intros _. exists d. split; [lia|done].
    + rewrite IH. split; intros (n & Hn & Hna).
      * exists n. split; [lia|done].
      * exists n. split; [|done].
        destruct (decide (n = d)) as [->|]; [congruence|lia].
Qed.

Lemma nextAnchor_cases (logs : list DailyLog) (now d : Z) :
  nextAnchor logs d now = null \/ exists w, nextAnchor logs d now = num w.
Proof.
  revert d. apply (range_ind now (fun d => _ \/ _)).
  - intros d Hd. left. by apply nextAnchor_empty.
  - intros d Hd IH. rewrite nextAnchor_step by lia.
    destruct (anchored logs d) eqn:Ha; [|exact IH].
    right. by apply anchored_num.
Qed.

(** ** Filters *)

Lemma filter_all_true {A : Type} (f : A -> bool) (l : list A) :
  (forall x, In x l -> f x = true) -> List.filter f l = l.
Proof.
  induction l as [|a l IH]; intros H; simpl; [reflexivity|].
  rewrite (H a) by (by left). f_equal. apply IH. intros x Hx. apply H. by right.
Qed.

Lemma filter_all_false {A : Type} (f : A -> bool) (l : list A) :
  (forall x, In x l -> f x = false) -> List.filter f l = [].
Proof.
  induction l as [|a l IH]; intros H; simpl; [reflexivity|].
  rewrite (H a) by (by left). apply IH. intros x Hx. apply H. by right.
Qed.



Lemma in_map_seqZ {A : Type} (f : Z -> A) (s n : Z) (x : A) :
  In x (map f (seqZ s n)) <-> exists d, s <= d < s + n /\ x = f d.
Proof.
  rewrite in_map_iff. split.
  - intros (d & <- & Hd). exists d. split; [|done].
    by apply elem_of_seqZ, list_elem_of_In.
  - intros (d & Hd & ->). exists d. split; [done|].
    by apply list_elem_of_In, elem_of_seqZ.
Qed.

(** ** The emitted points *)

Lemma resolvedPoint_weight (logs : list DailyLog) (now : Z) (dw : jsnum) (d : Z) :
  wd_weight (resolvedPoint logs now dw d) =
  if not_null (nextAnchor logs d now) then nextAnchor logs d now else dw.
Proof. reflexivity. Qed.


Lemma hasWeight_num (p : WeightDataPoint) :
  hasWeight p = true <-> exists w, wd_weight p = num w.
Proof.
  unfold hasWeight. destruct (wd_weight p); simpl; split; try discriminate; eauto.
  - by intros [w Hw].
  - by intros [w Hw].
Qed.

Lemma hasWeight_resolved (logs : list DailyLog) (now : Z) (dw : jsnum) (d : Z) :
  hasWeight (resolvedPoint logs now dw d) = true <->
  (exists n, d <= n <= now /\ anchored logs n = true) \/ present dw.
Proof.
  rewrite hasWeight_num, resolvedPoint_weight, <- nextAnchor_not_null.
  destruct (nextAnchor_cases logs now d) as [->|[w ->]]; simpl.
  - unfold present. split; [by right|]. by intros [|].
  - split; [by left|]. eauto.
Qed.

Lemma hasWeight_unresolved (logs : list DailyLog) (now : Z) (dw : jsnum) (d : Z) :
  ~ present dw ->
  (forall k, d <= k <= now -> anchored logs k = false) ->
  hasWeight (resolvedPoint logs now dw d) = false.
Proof.
  intros Hdw Hun. apply not_true_is_false. rewrite hasWeight_resolved.
  intros [(n & Hn & Ha)|Hp]; [|done]. rewrite Hun in Ha by lia. discriminate.
Qed.



(** When every day resolves, nothing is filtered. *)
Lemma build_full (startDate now : Z) (logs : list DailyLog) (dw : jsnum) :
  (forall d, startDate <= d <= now -> hasWeight (resolvedPoint logs now dw d) = true) ->
  build startDate now logs dw =
  map (resolvedPoint logs now dw) (seqZ startDate (now - startDate + 1)).
Proof.
  intros H. rewrite build_days. apply filter_all_true.
  intros x Hx. apply in_map_seqZ in Hx as (d & Hd & ->). apply H. lia.
Qed.

(** A range that ends before it starts has no days. *)
Lemma build_inverted (startDate now : Z) (logs : list DailyLog) (dw : jsnum) :
  now < startDate -> build startDate now logs dw = [].
Proof.
  intros Hinv. rewrite build_days, seqZ_nil by lia. reflexivity.
Qed.

(** ** Properties of the series *)

(** An anchored day keeps its own weight through the carry pass. *)
Lemma carriedWeight_anchored (startDate now : Z) (logs : list DailyLog) (d : Z) :
  startDate <= d <= now ->
  anchored logs d = true ->
  carriedWeight startDate now logs d = Some (anchorWeight logs d).
Proof.
  intros Hd Ha. rewrite carriedWeight_nextAnchor by lia.
  rewrite nextAnchor_step by lia. by rewrite Ha.
Qed.







(** C8 (inverted range).  When [startDate] lies after [now] the loop body
    never runs and the series is empty, whatever the logs and the fallback. *)
Theorem inverted_range_empty (startDate now : Z) (logs : list DailyLog) (dw : jsnum) :
  now < startDate -> build startDate now logs dw = [].
Proof.
  intros Hinv. unfold build, allDaysInRange.
  destruct (Z.to_nat (now - startDate + 1)) as [|fuel] eqn:Hfuel; simpl.
  - reflexivity.
  - destruct (Z.leb_spec startDate now) as [Hle|_]; [lia|reflexivity].
Qed.

Lemma inverted_range_empty_witness :
  build Sample.D3 Sample.D1 Sample.onD2 (Sample.kg 75 1) = [].
Proof.
  apply inverted_range_empty. unfold_days. lia.
Defined.

Lemma last_anchor (logs : list DailyLog) (now s : Z) :
  (forall k, s <= k <= now -> anchored logs k = false) \/
  (exists N, s <= N <= now /\ anchored logs N = true /\
             forall k, N < k <= now -> anchored logs k = false).
Proof.
  revert s. apply (range_ind now (fun s => _ \/ _)).
  - intros s Hs. left. intros k Hk. lia.
  - intros s Hs [Hnone|(N & HN & Ha & Hlast)].
    + destruct (anchored logs s) eqn:Ha.
      * right. exists s. split; [lia|]. split; [done|].
        intros k Hk. apply Hnone. lia.
      * left. intros k Hk. destruct (decide (k = s)) as [->|]; [done|].
        apply Hnone. lia.
    + right. exists N. split; [lia|]. by split.
Qed.





(** ** Summary statistics *)

Lemma Qc_ltb_lt (x y : Qc) : Qc_ltb x y = true <-> (x < y)%Qc.
Proof.
  unfold Qc_ltb. rewrite Qclt_alt. destruct (x ?= y)%Qc; split; congruence.
Qed.

Lemma Qc_eqb_eq (x y : Qc) : Qc_eqb x y = true <-> x = y.
Proof.
  unfold Qc_eqb. rewrite Qceq_alt. destruct (x ?= y)%Qc; split; congruence.
Qed.

Lemma or_zero_num (w : Qc) : or_zero (num w) = w.
Proof.
  unfold or_zero, js_or, truthy.
  destruct (Qc_eqb w 0) eqn:E; simpl; [|reflexivity].
  symmetry. by apply Qc_eqb_eq.
Qed.

Lemma Qc_lt_irrefl (x : Qc) : (x < x)%Qc -> False.
Proof. intros H. by apply (Qclt_not_eq x x). Qed.

Lemma Qc_lt_asym (x y : Qc) : (x < y)%Qc -> (y < x)%Qc -> False.
Proof. intros H1 H2. exact (Qc_lt_irrefl x (Qclt_trans _ _ _ H1 H2)). Qed.

Lemma trend_of_change (c : Qc) :
  let trend := if Qc_ltb c 0%Qc then down else if Qc_ltb 0%Qc c then up else neutral in
  ((c < 0)%Qc -> trend = down) /\
  ((0 < c)%Qc -> trend = up) /\
  (c = 0%Qc -> trend = neutral).
Proof.
  simpl. destruct (Qc_ltb c 0) eqn:Elt; [|destruct (Qc_ltb 0 c) eqn:Egt].
  - apply Qc_ltb_lt in Elt. repeat split.
    + intros Hgt. destruct (Qc_lt_asym _ _ Elt Hgt).
    + intros ->. destruct (Qc_lt_irrefl _ Elt).
  - apply Qc_ltb_lt in Egt. repeat split.
    + intros Hlt. destruct (Qc_lt_asym _ _ Hlt Egt).
    + intros ->. destruct (Qc_lt_irrefl _ Egt).
  - repeat split.
    + intros Hlt. apply Qc_ltb_lt in Hlt. congruence.
    + intros Hgt. apply Qc_ltb_lt in Hgt. congruence.
Qed.

(** C3 (summary statistics).  The empty series yields zeros and a neutral
    trend.  For a non-empty series whose first and last points carry the
    numbers [w0] and [wl], [start] is [w0], [end] is [wl], the change is
    [|wl - w0|], and the trend is down, up or neutral as [wl - w0] is negative,
    positive or zero. *)
Theorem calculateStats_spec :
  calculateStats [] =
    {| stats_start := 0%Qc; stats_end := 0%Qc; stats_change := 0%Qc;
       stats_trend := neutral |} /\
  forall (series : list WeightDataPoint) (first final : WeightDataPoint) (w0 wl : Qc),
    head series = Some first ->
    last series = Some final ->
    wd_weight first = num w0 ->
    wd_weight final = num wl ->
    let s := calculateStats series in
    stats_start s = w0 /\
    stats_end s = wl /\
    stats_change s = Qcabs (wl - w0) /\
    ((wl - w0 < 0)%Qc -> stats_trend s = down) /\
    ((0 < wl - w0)%Qc -> stats_trend s = up) /\
    ((wl - w0)%Qc = 0%Qc -> stats_trend s = neutral).
Proof.
  split; [reflexivity|].
  intros series first final w0 wl Hhead Hlast Hw0 Hwl.
  unfold calculateStats.
  destruct series as [|p series]; [discriminate|].
  rewrite head_lookup in Hhead. rewrite last_lookup in Hlast.
  replace (length (p :: series) - 1)%nat with (Nat.pred (length (p :: series)))
    by (simpl; lia).
  rewrite Hhead, Hlast. cbn [length Nat.eqb pointWeight].
  rewrite Hw0, Hwl, !or_zero_num. cbn zeta.
  cbn [stats_start stats_end stats_change stats_trend].
  split; [reflexivity|]. split; [reflexivity|]. split; [reflexivity|].
  apply trend_of_change.
Qed.

Lemma calculateStats_spec_witness :
  stats_trend (calculateStats
    [mkWeightDataPoint "2024-01-01" "01.01." (Sample.kg 72 1);
     mkWeightDataPoint "2024-01-02" "02.01." (Sample.kg 70 1)]) = down.
Proof.
  destruct calculateStats_spec as [_ Hstats].
  destruct (Hstats
    [mkWeightDataPoint "2024-01-01" "01.01." (Sample.kg 72 1);
     mkWeightDataPoint "2024-01-02" "02.01." (Sample.kg 70 1)]
    (mkWeightDataPoint "2024-01-01" "01.01." (Sample.kg 72 1))
    (mkWeightDataPoint "2024-01-02" "02.01." (Sample.kg 70 1))
    (Q2Qc 72) (Q2Qc 70) eq_refl eq_refl eq_refl eq_refl)
    as (_ & _ & _ & Hdown & _).
  apply Hdown. reflexivity.
Defined.

(** The trend examples: equal weights, a loss and a gain of two. *)
Example stats_equal :
  let s := calculateStats [mkWeightDataPoint "" "" (Sample.kg 70 1);
                           mkWeightDataPoint "" "" (Sample.kg 70 1)] in
  stats_trend s = neutral /\ stats_change s = 0%Qc.
Proof. split; [reflexivity|]. apply Qc_is_canon. reflexivity. Qed.

Example stats_loss :
  let s := calculateStats [mkWeightDataPoint "" "" (Sample.kg 72 1);
                           mkWeightDataPoint "" "" (Sample.kg 70 1)] in
  stats_trend s = down /\ stats_change s = Q2Qc 2.
Proof. split; [reflexivity|]. apply Qc_is_canon. reflexivity. Qed.

Example stats_gain :
  let s := calculateStats (build Sample.D1 Sample.D2 Sample.both null) in
  stats_start s = Q2Qc 68 /\ stats_end s = Q2Qc (139 # 2) /\
  stats_trend s = up /\ stats_change s = Q2Qc (3 # 2).
Proof.
  split; [reflexivity|]. split; [reflexivity|]. split; [reflexivity|].
  apply Qc_is_canon. reflexivity.
Qed.

(** ** The map of logs by date *)

Lemma datedOn_true (k : string) (e : DailyLog) :
  datedOn k e = true <-> log_date e = Some k.
Proof. unfold datedOn. destruct (decide _); split; congruence. Qed.

Lemma datedOn_false (k : string) (e : DailyLog) :
  datedOn k e = false <-> log_date e <> Some k.
Proof. unfold datedOn. destruct (decide _); split; congruence. Qed.

Lemma logsByDate_snoc (logs : list DailyLog) (e : DailyLog) (k : string) :
  logsByDate (logs ++ [e]) !! k =
  if datedOn k e && truthy_str (Some k) then Some e else logsByDate logs !! k.
Proof.
  unfold logsByDate. rewrite List.filter_app. cbn [List.filter].
  destruct (truthy_str (log_date e)) eqn:Et.
  - rewrite foldl_app. cbn [foldl]. unfold setLog at 1.
    destruct (log_date e) as [j|] eqn:Ej; [|discriminate].
    unfold datedOn. rewrite Ej.
    destruct (decide (Some j = Some k)) as [Heq|Hne].
    + injection Heq as ->. rewrite Et. cbn. apply lookup_insert_eq.
    + cbn. apply lookup_insert_ne. congruence.
  - rewrite app_nil_r.
    destruct (datedOn k e) eqn:Ed; [|reflexivity].
    apply datedOn_true in Ed. rewrite Ed in Et. by rewrite Et.
Qed.

Lemma logsByDate_nil (k : string) : logsByDate [] !! k = None.
Proof. apply lookup_empty. Qed.

Lemma logsByDate_app (l1 l2 : list DailyLog) (k : string) :
  logsByDate (l1 ++ l2) !! k =
  match logsByDate l2 !! k with
  | Some e => Some e
  | None => logsByDate l1 !! k
  end.
Proof.
  induction l2 as [|e l2 IH] using rev_ind.
  - by rewrite app_nil_r, logsByDate_nil.
  - rewrite app_assoc, !logsByDate_snoc, IH.
    by destruct (datedOn k e && truthy_str (Some k)).
Qed.

Lemma logsByDate_filter (keep : DailyLog -> bool) (logs : list DailyLog) (k : string) :
  (forall e, In e logs -> datedOn k e = true -> keep e = true) ->
  logsByDate (List.filter keep logs) !! k = logsByDate logs !! k.
Proof.
  induction logs as [|e logs IH] using rev_ind; intros Hkeep; [reflexivity|].
  assert (logsByDate (List.filter keep logs) !! k = logsByDate logs !! k) as IH'.
  { apply IH. intros x Hx. apply Hkeep. apply in_or_app. by left. }
  rewrite List.filter_app. cbn [List.filter].
  destruct (keep e) eqn:Ek.
  - by rewrite !logsByDate_snoc, IH'.
  - rewrite app_nil_r, logsByDate_snoc, IH'.
    destruct (datedOn k e) eqn:Ed; [|reflexivity].
    rewrite Hkeep in Ek; [discriminate| |done].
    apply in_or_app. right. by left.
Qed.

Lemma logsByDate_none (logs : list DailyLog) (k : string) :
  (forall e, In e logs -> log_date e <> Some k) ->
  logsByDate logs !! k = None.
Proof.
  intros Hno. rewrite <- (logsByDate_filter (fun _ => false)).
  - rewrite filter_all_false by done. apply logsByDate_nil.
  - intros e He Hd. apply datedOn_true in Hd. by destruct (Hno e He).
Qed.

Lemma logsByDate_cons (e : DailyLog) (logs : list DailyLog) (k : string) :
  logsByDate (e :: logs) !! k =
  match logsByDate logs !! k with
  | Some x => Some x
  | None => if datedOn k e && truthy_str (Some k) then Some e else None
  end.
Proof.
  change (e :: logs) with ([e] ++ logs). rewrite logsByDate_app.
  change [e] with ([] ++ [e]). by rewrite logsByDate_snoc, logsByDate_nil.
Qed.


(** The series depends on the logs only through the points of step 1. *)
Lemma build_ext (startDate now : Z) (logs1 logs2 : list DailyLog) (dw : jsnum) :
  (forall d, startDate <= d <= now ->
             initialPoint (logsByDate logs1) d = initialPoint (logsByDate logs2) d) ->
  build startDate now logs1 dw = build startDate now logs2 dw.
Proof.
  intros H. unfold build, initialPoints. do 2 f_equal.
  apply map_ext_in. intros d Hd. apply H.
  rewrite allDaysInRange_seqZ in Hd.
  apply list_elem_of_In, elem_of_seqZ in Hd. lia.
Qed.

Lemma build_ext_lookup (startDate now : Z) (logs1 logs2 : list DailyLog) (dw : jsnum) :
  (forall d, startDate <= d <= now ->
             logsByDate logs1 !! JSDate.toISODate d = logsByDate logs2 !! JSDate.toISODate d) ->
  build startDate now logs1 dw = build startDate now logs2 dw.
Proof.
  intros H. apply build_ext. intros d Hd. unfold initialPoint. by rewrite H.
Qed.

Lemma inRange_dated (startDate now : Z) (e : DailyLog) (d : Z) :
  startDate <= d <= now ->
  datedOn (JSDate.toISODate d) e = true ->
  inRange startDate now e = true.
Proof.
  intros Hd He. apply datedOn_true in He. unfold inRange.
  apply existsb_exists. exists d. split.
  - rewrite allDaysInRange_seqZ. apply list_elem_of_In, elem_of_seqZ. lia.
  - by destruct (decide _).
Qed.

Lemma build_inRange (startDate now : Z) (logs : list DailyLog) (dw : jsnum) :
  build startDate now logs dw =
  build startDate now (List.filter (inRange startDate now) logs) dw.
Proof.
  apply build_ext_lookup. intros d Hd. symmetry.
  apply logsByDate_filter. intros e _. by apply inRange_dated.
Qed.

(** C7 (entries outside the range).  The series built from all logs equals
    the series built from the logs dated on a day of the range, and inserting
    or removing entries that are dated on no day of the range leaves it
    unchanged. *)
Theorem out_of_range_ignored (startDate now : Z) (logs : list DailyLog) (dw : jsnum) :
  build startDate now logs dw =
    build startDate now (List.filter (inRange startDate now) logs) dw /\
  forall l1 extra l2,
    logs = l1 ++ extra ++ l2 ->
    (forall e, In e extra -> inRange startDate now e = false) ->
    build startDate now logs dw = build startDate now (l1 ++ l2) dw.
Proof.
  split; [apply build_inRange|].
  intros l1 extra l2 -> Hout.
  rewrite (build_inRange _ _ (l1 ++ extra ++ l2)), (build_inRange _ _ (l1 ++ l2)).
  rewrite !List.filter_app, (filter_all_false _ extra) by done. reflexivity.
Qed.

Lemma out_of_range_ignored_witness :
  build Sample.D1 Sample.D3
    ([mkLog (Some "2023-12-31") (Sample.kg 90 1)] ++ Sample.onD2) null =
  build Sample.D1 Sample.D3 Sample.onD2 null.
Proof.
  apply (out_of_range_ignored Sample.D1 Sample.D3 _ null)
    with (l1 := []) (extra := [mkLog (Some "2023-12-31") (Sample.kg 90 1)]).
  - reflexivity.
  - intros e [<-|[]]. reflexivity.
Defined.

Lemma initialPoint_unactual (byDate : gmap string DailyLog) (d : Z) :
  isActual (optWeight (byDate !! JSDate.toISODate d)) = false ->
  initialPoint byDate d =
  mkPoint (JSDate.toISODate d) (JSDate.formatLabel d) null false.
Proof. unfold initialPoint. by intros ->. Qed.

(** C6 (duplicate dates).  [build] is a total function of its inputs.  When
    several entries carry the date [k], the entry [e] delivered last is the one
    stored under [k]: the point of a day rendered as [k] is computed from [e],
    and the earlier entries dated [k] can be removed without changing the
    series. *)
Theorem duplicate_last_wins (startDate now : Z) (l1 : list DailyLog) (e : DailyLog)
    (l2 : list DailyLog) (k : string) (dw : jsnum) :
  log_date e = Some k ->
  k <> EmptyString ->
  (forall x, In x l2 -> log_date x <> Some k) ->
  logsByDate (l1 ++ e :: l2) !! k = Some e /\
  (forall d, JSDate.toISODate d = k ->
     anchored (l1 ++ e :: l2) d = isActual (log_weight e) /\
     anchorWeight (l1 ++ e :: l2) d =
       if isActual (log_weight e) then log_weight e else null) /\
  build startDate now (l1 ++ e :: l2) dw =
    build startDate now (List.filter (fun x => negb (datedOn k x)) l1 ++ e :: l2) dw.
Proof.
  intros He Hk Hl2.
  assert (truthy_str (Some k) = true) as Htk by (by destruct k).
  assert (datedOn k e = true) as Hde by (by apply datedOn_true).
  assert (forall l, logsByDate (l ++ e :: l2) !! k = Some e) as Hlook.
  { intros l. rewrite logsByDate_app, logsByDate_cons.
    by rewrite (logsByDate_none l2 k), Hde, Htk by done. }
  split; [apply Hlook|]. split.
  - intros d <-. unfold anchored, anchorWeight, initialPoint.
    rewrite Hlook. by split.
  - apply build_ext_lookup. intros d _.
    destruct (decide (JSDate.toISODate d = k)) as [->|Hne].
    + by rewrite !Hlook.
    + rewrite !(logsByDate_app _ (e :: l2)).
      destruct (logsByDate (e :: l2) !! JSDate.toISODate d); [reflexivity|].
      symmetry. apply logsByDate_filter. intros x _ Hx.
      apply datedOn_true in Hx. apply negb_true_iff, datedOn_false. congruence.
Qed.

Lemma duplicate_last_wins_witness :
  logsByDate [Sample.weighed; Sample.unweighed] !! "2024-01-01"%string
    = Some Sample.unweighed.
Proof.
  apply (duplicate_last_wins Sample.D1 Sample.D1
           [Sample.weighed] Sample.unweighed [] "2024-01-01" null).
  - reflexivity.
  - discriminate.
  - intros x [].
Defined.




(** ** The profile weight as fallback *)

Lemma depsChanged_spec (s s' : Screen) :
  depsChanged s s' = false <->
  timeRange s = timeRange s' /\ defaultWeight s = defaultWeight s'.
Proof.
  unfold depsChanged. destruct (Z.eqb_spec (timeRange s) (timeRange s'));
    destruct (jsnum_eq_dec (defaultWeight s) (defaultWeight s')); simpl;
    split; try done; intros [? ?]; done.
Qed.

(** Two runs of the effect are enough: the second run reads the profile weight
    stored by the first, and stores the same value again. *)
Lemma runEffect_settles (fuel : nat) (userProfile : option UserProfile) (now : Z)
    (logs : list DailyLog) (s : Screen) :
  (2 <= fuel)%nat ->
  runEffect fuel userProfile now logs s =
  {| weightData := build (now - timeRange s) now logs
                     (js_or (optProfileWeight userProfile) null);
     defaultWeight := js_or (optProfileWeight userProfile) null;
     timeRange := timeRange s |}.
Proof.
  intros Hfuel. destruct fuel as [|[|fuel]]; [lia|lia|].
  set (c := js_or (optProfileWeight userProfile) null).
  cbn [runEffect].
  destruct (depsChanged s (loadWeightData userProfile now logs s)) eqn:E1.
  - set (s1 := loadWeightData userProfile now logs s).
    assert (depsChanged s1 (loadWeightData userProfile now logs s1) = false) as ->.
    { by apply depsChanged_spec. }
    reflexivity.
  - apply depsChanged_spec in E1 as [_ E1]. cbn in E1.
    unfold loadWeightData. by rewrite E1.
Qed.


Lemma js_or_nonzero (w : Qc) : w <> 0%Qc -> js_or (num w) null = num w.
Proof.
  intros Hw. unfold js_or, truthy.
  destruct (Qc_eqb w 0) eqn:E; [|reflexivity].
  apply Qc_eqb_eq in E. contradiction.
Qed.

Lemma js_or_nonzero_gen (w : Qc) (other : jsnum) :
  w <> 0%Qc -> js_or (num w) other = num w.
Proof.
  intros Hw. unfold js_or, truthy.
  destruct (Qc_eqb w 0) eqn:E; [|reflexivity].
  apply Qc_eqb_eq in E. contradiction.
Qed.



(** A profile weight other than zero is kept and fills every day of the
    range. *)
Lemma nonzero_profile_weight_fills (now : Z) (logs : list DailyLog) (s : Screen)
    (fuel : nat) (w : Qc) :
  (2 <= fuel)%nat ->
  0 <= timeRange s ->
  w <> 0%Qc ->
  let s' := runEffect fuel (Some (mkProfile (num w))) now logs s in
  defaultWeight s' = num w /\
  Z.of_nat (length (weightData s')) = timeRange s + 1.
Proof.
  intros Hfuel Htr Hw. cbn zeta. rewrite runEffect_settles by done.
  cbn [defaultWeight weightData optProfileWeight profile_weight].
  rewrite js_or_nonzero by done. split; [done|].
  rewrite build_full.
  - rewrite length_map, length_seqZ. lia.
  - intros d Hd. apply hasWeight_resolved. right. by exists w.
Qed.

(** ** Scenarios *)

(** A single log on the last of three days fills all three; the fallback is
    not used. *)
Example carry_dominates :
  map wd_weight (build Sample.D1 Sample.D3 Sample.onD3 (Sample.kg 75 1)) =
  [Sample.kg 80 1; Sample.kg 80 1; Sample.kg 80 1].
Proof. reflexivity. Qed.

(** No logs: the fallback on every day, or nothing at all. *)
Example only_fallback :
  map wd_weight (build Sample.D1 Sample.D3 [] (Sample.kg 75 1)) =
  [Sample.kg 75 1; Sample.kg 75 1; Sample.kg 75 1] /\
  build Sample.D1 Sample.D3 [] null = [].
Proof. split; reflexivity. Qed.

(** Both days logged: the series repeats the logs. *)
Example both_logged :
  build Sample.D1 Sample.D2 Sample.both null =
  [mkWeightDataPoint "2024-01-01" "01.01." (Sample.kg 68 1);
   mkWeightDataPoint "2024-01-02" "02.01." (Sample.kg 139 2)].
Proof. reflexivity. Qed.

(** The first mount with a profile weight of 75: the second run of the effect
    uses it for the days after the last log. *)
Example mount_with_profile :
  map wd_weight
    (weightData (runEffect 2 (Some (mkProfile (Sample.kg 75 1))) Sample.D3
                   Sample.onD2 (mkScreen [] null 2))) =
  [Sample.kg 80 1; Sample.kg 80 1; Sample.kg 75 1].
Proof. reflexivity. Qed.

(** The statistics of a series returned by [build] read the weights of its
    first and last point. *)
Corollary calculateStats_build (startDate now : Z) (logs : list DailyLog) (dw : jsnum)
    (first final : WeightDataPoint) :
  head (build startDate now logs dw) = Some first ->
  last (build startDate now logs dw) = Some final ->
  wd_weight first = num (stats_start (calculateStats (build startDate now logs dw))) /\
  wd_weight final = num (stats_end (calculateStats (build startDate now logs dw))).
Proof.
  intros Hhead Hlast.
  assert (forall p, In p (build startDate now logs dw) -> exists w, wd_weight p = num w)
    as Hnum.
  { intros p Hp. rewrite build_days in Hp. apply filter_In in Hp as [_ Hp].
    by apply hasWeight_num. }
  destruct (Hnum first) as [w0 Hw0].
  { apply list_elem_of_In, list_elem_of_lookup. exists 0%nat. by rewrite <- head_lookup. }
  destruct (Hnum final) as [wl Hwl].
  { apply list_elem_of_In, list_elem_of_lookup. eexists. by rewrite <- last_lookup. }
  unfold calculateStats.
  destruct (build startDate now logs dw) as [|p series]; [discriminate|].
  rewrite head_lookup in Hhead. rewrite last_lookup in Hlast.
  replace (length (p :: series) - 1)%nat with (Nat.pred (length (p :: series)))
    by (simpl; lia).
  rewrite Hhead, Hlast. cbn [length Nat.eqb pointWeight stats_start stats_end].
  by rewrite Hw0, Hwl, !or_zero_num.
Qed.

(** ** Further properties: the steps of [loadWeightData] *)



Lemma carryForward_fields (lk : jsnum) (ps : list Point) :
  map date (carryForward lk ps) = map date ps /\
  map formattedDate (carryForward lk ps) = map formattedDate ps /\
  map hasActualWeight (carryForward lk ps) = map hasActualWeight ps.
Proof.
  revert lk. induction ps as [|p ps IH]; intros lk; [done|].
  cbn [carryForward].
  destruct (hasActualWeight p) eqn:Ha.
  - cbn [map]. destruct (IH (weight p)) as (-> & -> & ->). by rewrite Ha.
  - destruct (not_null lk); cbn [map setWeight date formattedDate hasActualWeight];
      destruct (IH lk) as (-> & -> & ->); by rewrite ?Ha.
Qed.

(** X2.  The carry pass only writes weights of unanchored points: the series
    keeps its length, every point keeps its date, its label and its
    [hasActualWeight] mark, and a point with an actual weight is left as it
    was. *)
Theorem carry_keeps_points (ps : list Point) :
  length (rev (reversedPoints ps)) = length ps /\
  map date (rev (reversedPoints ps)) = map date ps /\
  map formattedDate (rev (reversedPoints ps)) = map formattedDate ps /\
  map hasActualWeight (rev (reversedPoints ps)) = map hasActualWeight ps /\
  (forall i p, ps !! i = Some p -> hasActualWeight p = true ->
               rev (reversedPoints ps) !! i = Some p).
Proof.
  unfold reversedPoints.
  destruct (carryForward_fields null (rev ps)) as (Hd & Hf & Ha).
  assert (length (rev (carryForward null (rev ps))) = length ps) as Hlen.
  { rewrite length_rev, <- (length_map date), Hd, length_map. apply length_rev. }
  split; [done|].
  split; [by rewrite map_rev, Hd, <- map_rev, rev_involutive|].
  split; [by rewrite map_rev, Hf, <- map_rev, rev_involutive|].
  split; [by rewrite map_rev, Ha, <- map_rev, rev_involutive|].
  intros i p Hi Hp.
  change (rev (carryForward null (rev ps))) with (rev (reversedPoints ps)).
  rewrite reversedPoints_fillBack.
  clear -Hi Hp. revert i Hi. induction ps as [|a ps IH]; intros i Hi; [done|].
  cbn [fillBack]. destruct i as [|i].
  - injection Hi as ->. by rewrite Hp.
  - cbn. by apply IH.
Qed.

Lemma carry_keeps_points_witness :
  rev (reversedPoints
    [mkPoint "2024-01-01" "01.01." null false;
     mkPoint "2024-01-02" "02.01." (Sample.kg 80 1) true]) !! 1%nat =
  Some (mkPoint "2024-01-02" "02.01." (Sample.kg 80 1) true).
Proof.
  destruct (carry_keeps_points
    [mkPoint "2024-01-01" "01.01." null false;
     mkPoint "2024-01-02" "02.01." (Sample.kg 80 1) true]) as (_ & _ & _ & _ & Hkeep).
  apply Hkeep; reflexivity.
Defined.

(** X3.  Delivering logs in two batches: the map of the concatenation is the
    map of the later batch, completed by the entries of the earlier batch
    whose dates the later batch does not carry. *)
Theorem logsByDate_app_union (l1 l2 : list DailyLog) :
  logsByDate (l1 ++ l2) = logsByDate l2 ∪ logsByDate l1.
Proof.
  apply map_eq. intros k. rewrite logsByDate_app, lookup_union.
  destruct (logsByDate l2 !! k) as [e|]; destruct (logsByDate l1 !! k); reflexivity.
Qed.

Lemma logsByDate_sound (logs : list DailyLog) (k : string) (e : DailyLog) :
  logsByDate logs !! k = Some e ->
  In e logs /\ log_date e = Some k /\ k <> EmptyString.
Proof.
  induction logs as [|x logs IH] using rev_ind; [by rewrite logsByDate_nil|].
  rewrite logsByDate_snoc.
  destruct (datedOn k x) eqn:Ed; cbn [andb].
  - destruct (truthy_str (Some k)) eqn:Et.
    + intros [= <-]. split; [apply in_or_app; right; by left|].
      split; [by apply datedOn_true|]. intros ->. discriminate.
    + intros H. destruct (IH H) as (Hin & ? & ?).
      split; [apply in_or_app; by left|done].
  - intros H. destruct (IH H) as (Hin & ? & ?).
    split; [apply in_or_app; by left|done].
Qed.

(** X4.  What the map holds: an entry found under [k] is one of the delivered
    logs, is dated [k], and [k] is not the empty string; and a key is present
    exactly when it is a non-empty date carried by some delivered log.  Logs
    without a date are never stored. *)
Theorem logsByDate_lookup (logs : list DailyLog) (k : string) :
  (forall e, logsByDate logs !! k = Some e ->
             In e logs /\ log_date e = Some k /\ k <> EmptyString) /\
  (is_Some (logsByDate logs !! k) <->
   k <> EmptyString /\ exists e, In e logs /\ log_date e = Some k).
Proof.
  split; [intros e; apply logsByDate_sound|].
  split.
  - intros [e He]. destruct (logsByDate_sound _ _ _ He) as (Hin & Hd & Hk).
    split; [done|]. by exists e.
  - intros (Hk & e & Hin & Hd).
    assert (truthy_str (Some k) = true) as Ht by (by destruct k).
    induction logs as [|x logs IH] using rev_ind; [destruct Hin|].
    rewrite logsByDate_snoc, Ht.
    destruct (datedOn k x) eqn:Ed; cbn [andb]; [by eexists|].
    apply in_app_or in Hin as [Hin|[<-|[]]]; [by apply IH|].
    apply datedOn_false in Ed. contradiction.
Qed.

(** ** Further properties: the series *)


Lemma resolvedPoint_carried (logs : list DailyLog) (now : Z) (dw dw' : jsnum) (d : Z) :
  not_null (nextAnchor logs d now) = true ->
  resolvedPoint logs now dw d = resolvedPoint logs now dw' d.
Proof.
  unfold resolvedPoint, withFallback. cbn [weight setWeight date formattedDate].
  by intros ->.
Qed.

(** The days up to a day with an anchored day ahead pass the filter. *)
Lemma build_split (startDate now : Z) (logs : list DailyLog) (dw : jsnum) (m : Z) :
  startDate - 1 <= m <= now ->
  (forall d, startDate <= d <= m -> not_null (nextAnchor logs d now) = true) ->
  build startDate now logs dw =
  map (resolvedPoint logs now dw) (seqZ startDate (m - startDate + 1)) ++
  List.filter hasWeight (map (resolvedPoint logs now dw) (seqZ (m + 1) (now - m))).
Proof.
  intros Hm Hres. rewrite build_days.
  replace (now - startDate + 1) with ((m - startDate + 1) + (now - m)) by lia.
  rewrite seqZ_app by lia.
  change (@app Z) with (@List.app Z).
  rewrite map_app, List.filter_app.
  replace (startDate + (m - startDate + 1)) with (m + 1) by lia.
  replace (m - startDate + 1 + (now - m) - (m - startDate + 1)) with (now - m) by lia.
  f_equal. apply filter_all_true. intros x Hx.
  apply in_map_seqZ in Hx as (d & Hd & ->).
  apply hasWeight_num. rewrite resolvedPoint_weight, Hres by lia.
  destruct (nextAnchor_cases logs now d) as [E|[w E]]; [|by exists w].
  specialize (Hres d ltac:(lia)). rewrite E in Hres. discriminate.
Qed.







Lemma last_resolved (startDate now : Z) (logs : list DailyLog) :
  startDate <= now + 1 ->
  exists m, startDate - 1 <= m <= now /\
    (forall d, startDate <= d <= m -> not_null (nextAnchor logs d now) = true) /\
    (forall k, m < k <= now -> anchored logs k = false).
Proof.
  intros Hr. destruct (last_anchor logs now startDate) as [Hnone|(N & HN & Ha & Hafter)].
  - exists (startDate - 1). split; [lia|]. split; [intros d Hd; lia|].
    intros k Hk. apply Hnone. lia.
  - exists N. split; [lia|]. split; [|done].
    intros d Hd. apply nextAnchor_not_null. exists N. split; [lia|done].
Qed.




(** X8.  The fallback only completes the series: the series built with a
    fallback weight starts with the series built without one, and every point
    after that carries the fallback weight. *)
Theorem fallback_only_appends (startDate now : Z) (logs : list DailyLog) (dw : jsnum) :
  exists tail,
    build startDate now logs dw = build startDate now logs null ++ tail /\
    forall p, In p tail -> wd_weight p = dw.
Proof.
  destruct (Z.lt_ge_cases now startDate) as [Hinv|Hr].
  { exists []. rewrite !build_inverted by lia. by split. }
  destruct (last_resolved startDate now logs) as (m & Hm & Hres & Hafter); [lia|].
  exists (List.filter hasWeight
            (map (resolvedPoint logs now dw) (seqZ (m + 1) (now - m)))).
  split.
  - rewrite (build_split startDate now logs dw m), (build_split startDate now logs null m)
      by done.
    rewrite (filter_all_false _ (map (resolvedPoint logs now null) _)).
    + rewrite app_nil_r. f_equal. apply map_ext_in. intros d Hd.
      apply resolvedPoint_carried, Hres.
      apply list_elem_of_In, elem_of_seqZ in Hd. lia.
    + intros x Hx. apply in_map_seqZ in Hx as (d & Hd & ->).
      apply hasWeight_unresolved; [by intros [w Hw]|].
      intros k Hk. apply Hafter. lia.
  - intros p Hp. apply filter_In in Hp as [Hp _].
    apply in_map_seqZ in Hp as (d & Hd & ->).
    rewrite resolvedPoint_weight, nextAnchor_none; [reflexivity|].
    intros k Hk. apply Hafter. lia.
Qed.



(** ** Further properties: the chart *)

Lemma prepareChartData_imap (weightData : list WeightDataPoint) :
  prepareChartData weightData =
  imap (fun index point =>
          {| dp_x := Z.of_nat index + 1;
             dp_weight := wd_weight point;
             dateLabel := wd_formattedDate point |}) weightData.
Proof. by destruct weightData. Qed.

Lemma prepareChartData_lookup (weightData : list WeightDataPoint) (i : nat) :
  prepareChartData weightData !! i =
  (fun point => mkDataPoint (Z.of_nat i + 1) (wd_weight point) (wd_formattedDate point))
    <$> weightData !! i.
Proof. rewrite prepareChartData_imap. apply list_lookup_imap. Qed.

(** X9.  The chart data has one point per point of the series, in the same
    order: the x values are 1, 2, ... up to the length of the series, and the
    weights and labels are those of the series. *)
Theorem prepareChartData_indexed (weightData : list WeightDataPoint) :
  map dp_x (prepareChartData weightData) = seqZ 1 (Z.of_nat (length weightData)) /\
  map dp_weight (prepareChartData weightData) = map wd_weight weightData /\
  map dateLabel (prepareChartData weightData) = map wd_formattedDate weightData.
Proof.
  change (map ?f ?l) with (f <$> l).
  repeat split; apply list_eq; intros i;
    rewrite !list_lookup_fmap, prepareChartData_lookup;
    destruct (weightData !! i) as [p|] eqn:Hi; cbn; try reflexivity.
  - rewrite lookup_seqZ_lt by (apply lookup_lt_Some in Hi; lia). f_equal. lia.
  - rewrite lookup_seqZ_ge by (apply lookup_ge_None in Hi; lia). reflexivity.
Qed.

Lemma tickFormat_index (weightData : list WeightDataPoint) (i : nat) :
  tickFormat (prepareChartData weightData) (Z.of_nat i + 1) =
  match weightData !! i with
  | Some p => wd_formattedDate p
  | None => EmptyString
  end.
Proof.
  unfold tickFormat, at_index.
  replace (Z.of_nat i + 1 - 1) with (Z.of_nat i) by lia.
  destruct (Z.leb_spec 0 (Z.of_nat i)) as [_|Hneg]; [|lia].
  rewrite Nat2Z.id, prepareChartData_lookup.
  destruct (weightData !! i) as [p|]; cbn; [|reflexivity].
  by destruct (wd_formattedDate p).
Qed.

(** X10.  The tick format finds a chart point again by its x value: for every
    point of the chart data it returns that point's date label, and for an x
    value below 1 or above the number of points it returns the empty string. *)
Theorem tickFormat_roundtrip (weightData : list WeightDataPoint) :
  (forall dp, In dp (prepareChartData weightData) ->
              tickFormat (prepareChartData weightData) (dp_x dp) = dateLabel dp) /\
  (forall x, x < 1 \/ Z.of_nat (length weightData) < x ->
             tickFormat (prepareChartData weightData) x = EmptyString).
Proof.
  split.
  - intros dp Hdp. apply list_elem_of_In, list_elem_of_lookup in Hdp as [i Hi].
    rewrite prepareChartData_lookup in Hi.
    destruct (weightData !! i) as [p|] eqn:Hp; [|discriminate].
    injection Hi as <-. cbn [dp_x dateLabel].
    by rewrite tickFormat_index, Hp.
  - intros x [Hlow|Hhigh].
    + unfold tickFormat, at_index.
      destruct (Z.leb_spec 0 (x - 1)) as [Hge|_]; [lia|reflexivity].
    + replace x with (Z.of_nat (Z.to_nat (x - 1)) + 1) by lia.
      rewrite tickFormat_index.
      by rewrite (proj2 (lookup_ge_None _ _)) by lia.
Qed.

Lemma tickFormat_roundtrip_witness :
  tickFormat (prepareChartData (build Sample.D1 Sample.D3 Sample.onD3 null)) 4 = EmptyString.
Proof.
  destruct (tickFormat_roundtrip (build Sample.D1 Sample.D3 Sample.onD3 null)) as [_ Hout].
  apply Hout. right. vm_compute. reflexivity.
Defined.



Lemma fallback_only_appends_witness :
  exists tail,
    build Sample.D1 Sample.D3 Sample.onD2 (Sample.kg 75 1) =
      build Sample.D1 Sample.D3 Sample.onD2 null ++ tail /\
    forall p, In p tail -> wd_weight p = Sample.kg 75 1.
Proof.
  exact (fallback_only_appends Sample.D1 Sample.D3 Sample.onD2 (Sample.kg 75 1)).
Defined.

Lemma logsByDate_lookup_witness :
  In Sample.unweighed [Sample.weighed; Sample.unweighed] /\
  log_date Sample.unweighed = Some "2024-01-01"%string /\
  "2024-01-01"%string <> EmptyString.
Proof.
  destruct (logsByDate_lookup [Sample.weighed; Sample.unweighed] "2024-01-01")
    as [Hsound _].
  apply Hsound. vm_compute. reflexivity.
Defined.

(** ** Further properties: the effect and the range buttons *)






(** ** Further properties: the statistics *)

Lemma trend_cases (c : Qc) :
  let trend := if Qc_ltb c 0%Qc then down else if Qc_ltb 0%Qc c then up else neutral in
  (trend = down /\ (c < 0)%Qc) \/
  (trend = up /\ (0 < c)%Qc) \/
  (trend = neutral /\ c = 0%Qc).
Proof.
  cbn zeta. destruct (Qc_ltb c 0) eqn:Elt; [|destruct (Qc_ltb 0 c) eqn:Egt].
  - left. split; [done|]. by apply Qc_ltb_lt.
  - right; left. split; [done|]. by apply Qc_ltb_lt.
  - right; right. split; [done|]. apply Qcle_antisym.
    + apply Qcnot_lt_le. intros H. apply Qc_ltb_lt in H. congruence.
    + apply Qcnot_lt_le. intros H. apply Qc_ltb_lt in H. congruence.
Qed.

Lemma Qc_sub_neg (e s : Qc) : (e - s < 0)%Qc <-> (e < s)%Qc.
Proof.
  rewrite (Qclt_minus_iff (e - s) 0), (Qclt_minus_iff e s).
  replace (0 + - (e - s))%Qc with (s + - e)%Qc by ring. reflexivity.
Qed.

Lemma Qc_sub_pos (e s : Qc) : (0 < e - s)%Qc <-> (s < e)%Qc.
Proof. rewrite (Qclt_minus_iff s e). reflexivity. Qed.

Lemma Qc_sub_zero (e s : Qc) : (e - s)%Qc = 0%Qc <-> e = s.
Proof.
  split.
  - intros H. replace e with ((e - s) + s)%Qc by ring. rewrite H. ring.
  - intros ->. ring.
Qed.

Lemma Qcabs_zero_iff (c : Qc) : Qcabs c = 0%Qc <-> c = 0%Qc.
Proof.
  split; [apply Qcabs_null|]. intros ->. apply Qcabs_pos, Qcle_refl.
Qed.

(** The fields of the statistics in terms of the two weights read. *)
Lemma calculateStats_fields (series : list WeightDataPoint) :
  exists s e : Qc,
    stats_start (calculateStats series) = s /\
    stats_end (calculateStats series) = e /\
    stats_change (calculateStats series) = Qcabs (e - s) /\
    stats_trend (calculateStats series) =
      (if Qc_ltb (e - s) 0%Qc then down else if Qc_ltb 0%Qc (e - s) then up else neutral) /\
    (series <> [] ->
     s = or_zero (pointWeight (head series)) /\ e = or_zero (pointWeight (last series))).
Proof.
  destruct series as [|p series].
  - exists 0%Qc, 0%Qc. cbn. repeat split; try done.
    apply Qc_is_canon. reflexivity.
  - eexists _, _. unfold calculateStats. cbn [length Nat.eqb stats_start stats_end
      stats_change stats_trend]. repeat split.
    rewrite last_lookup. cbn [length Nat.pred].
    replace (S (length series) - 1)%nat with (length series) by lia. reflexivity.
Qed.

Lemma calculateStats_signs (series : list WeightDataPoint) :
  let s := calculateStats series in
  (stats_trend s = neutral <-> stats_start s = stats_end s) /\
  (stats_trend s = down <-> (stats_end s < stats_start s)%Qc) /\
  (stats_trend s = up <-> (stats_start s < stats_end s)%Qc) /\
  (stats_change s = 0%Qc <-> stats_start s = stats_end s).
Proof.
  cbn zeta.
  destruct (calculateStats_fields series) as (s & e & -> & -> & -> & -> & _).
  rewrite Qcabs_zero_iff, <- (Qc_sub_neg e s), <- (Qc_sub_pos e s).
  assert (s = e <-> (e - s)%Qc = 0%Qc) as -> by (rewrite Qc_sub_zero; split; congruence).
  split; [|split; [|split]]; try reflexivity;
    destruct (trend_cases (e - s)) as [[Ht Hc]|[[Ht Hc]|[Ht Hc]]];
    cbn zeta in Ht; rewrite Ht; split; try done; intros H;
    first [ destruct (Qc_lt_asym _ _ H Hc)
          | rewrite H in Hc; destruct (Qc_lt_irrefl _ Hc)
          | rewrite Hc in H; destruct (Qc_lt_irrefl _ H) ].
Qed.

(** X14.  The trend agrees with the numbers shown beside it, for every
    series: it is neutral exactly when the change is zero, which is exactly
    when start and end weight are equal; it is down exactly when the end weight
    is below the start weight and up exactly when it is above; the change is
    never negative. *)
Theorem stats_trend_agrees (series : list WeightDataPoint) :
  let s := calculateStats series in
  (stats_trend s = neutral <-> stats_change s = 0%Qc) /\
  (stats_trend s = neutral <-> stats_start s = stats_end s) /\
  (stats_trend s = down <-> (stats_end s < stats_start s)%Qc) /\
  (stats_trend s = up <-> (stats_start s < stats_end s)%Qc) /\
  (0 <= stats_change s)%Qc.
Proof.
  cbn zeta. destruct (calculateStats_signs series) as (Hn & Hd & Hu & Hz).
  split; [by rewrite Hz|]. split; [done|]. split; [done|]. split; [done|].
  destruct (calculateStats_fields series) as (s & e & _ & _ & -> & _).
  apply Qcabs_nonneg.
Qed.

Lemma stats_trend_agrees_witness :
  stats_trend (calculateStats (build Sample.D1 Sample.D3 Sample.onD3 null)) = neutral.
Proof.
  apply (stats_trend_agrees (build Sample.D1 Sample.D3 Sample.onD3 null)).
  reflexivity.
Defined.

(** X15.  Reading a series backwards swaps start and end weight, keeps the
    change and turns the trend around: down becomes up, up becomes down and
    neutral stays neutral. *)
Theorem stats_reverse (series : list WeightDataPoint) :
  let s := calculateStats series in
  let r := calculateStats (rev series) in
  stats_start r = stats_end s /\
  stats_end r = stats_start s /\
  stats_change r = stats_change s /\
  (stats_trend r = down <-> stats_trend s = up) /\
  (stats_trend r = up <-> stats_trend s = down) /\
  (stats_trend r = neutral <-> stats_trend s = neutral).
Proof.
  cbn zeta.
  assert (stats_start (calculateStats (rev series)) = stats_end (calculateStats series) /\
          stats_end (calculateStats (rev series)) = stats_start (calculateStats series) /\
          stats_change (calculateStats (rev series)) = stats_change (calculateStats series))
    as (Hs & He & Hc).
  { destruct series as [|p series]; [done|].
    destruct (calculateStats_fields (p :: series)) as (s & e & -> & -> & -> & _ & Hends).
    destruct (calculateStats_fields (rev (p :: series)))
      as (s' & e' & -> & -> & -> & _ & Hends').
    destruct Hends as [-> ->]; [done|].
    destruct Hends' as [-> ->].
    { intros Hnil. apply (f_equal (@length _)) in Hnil.
      rewrite length_rev in Hnil. discriminate. }
    rewrite rev_alt. change (rev_append (p :: series) []) with (reverse (p :: series)).
    rewrite head_reverse, last_reverse. split; [done|]. split; [done|].
    apply Qcabs_Qcminus. }
  destruct (calculateStats_signs series) as (Hn & Hd & Hu & _).
  destruct (calculateStats_signs (rev series)) as (Hn' & Hd' & Hu' & _).
  cbn zeta in *. rewrite Hn', Hd', Hu', Hn, Hd, Hu, Hs, He.
  split; [done|]. split; [done|]. split; [done|]. split; [done|]. split; [done|].
  split; congruence.
Qed.

(** ** Further properties: the nutrition report screen *)

(** X16.  After [loadData] the loading flag is off whatever happened, but the
    screen, started from its initial state, still shows the loading screen
    exactly when no goals were found: a fetch was rejected, or
    [fetchUserGoals] delivered nothing or an empty list and the profile has no
    goals. *)
Theorem loading_screen_stays {UserGoals : Type} (params : option jsnum)
    (profileResult : Promise (option (NutritionReport.Profile UserGoals)))
    (goalsResult : Promise (option (list UserGoals))) :
  let s := NutritionReport.loadData profileResult goalsResult NutritionReport.initialState in
  NutritionReport.isLoading s = false /\
  (NutritionReport.render params s = NutritionReport.LoadingScreen <->
   profileResult = Rejected \/ goalsResult = Rejected \/
   exists profile fetched,
     profileResult = Resolved profile /\ goalsResult = Resolved fetched /\
     (fetched = None \/ fetched = Some []) /\
     NutritionReport.profileGoals profile = None).
Proof.
  cbn zeta. split.
  - destruct profileResult as [|profile]; [reflexivity|].
    destruct goalsResult as [|[[|g rest]|]]; cbn;
      try reflexivity; by destruct (NutritionReport.profileGoals profile).
  - destruct profileResult as [|profile]; [cbn; split; [by left|done]|].
    destruct goalsResult as [|[[|g rest]|]].
    + cbn. split; [by right; left|done].
    + unfold NutritionReport.loadData, NutritionReport.render.
      destruct (NutritionReport.profileGoals profile) as [pg|] eqn:Hpg; cbn.
      * split; [done|]. intros [?|[?|(p & f & [= <-] & _ & _ & Hno)]]; congruence.
      * split; [|done]. intros _. right; right. exists profile, (Some []).
        repeat split; by auto.
    + cbn. split; [done|].
      intros [?|[?|(p & f & _ & [= <-] & [?|?] & _)]]; congruence.
    + unfold NutritionReport.loadData, NutritionReport.render.
      destruct (NutritionReport.profileGoals profile) as [pg|] eqn:Hpg; cbn.
      * split; [done|]. intros [?|[?|(p & f & [= <-] & _ & _ & Hno)]]; congruence.
      * split; [|done]. intros _. right; right. exists profile, None.
        repeat split; by auto.
Qed.

(** X17.  Which goals the screen stores: the first fetched goal wins over the
    goals of the profile; the profile's goals are used when nothing was
    fetched; and when a fetch is rejected the goals held before are kept, while
    the profile is stored as soon as its own fetch has resolved. *)
Theorem loadData_goals {UserGoals : Type}
    (s : NutritionReport.State UserGoals)
    (profile : option (NutritionReport.Profile UserGoals)) :
  (forall g rest,
     NutritionReport.userGoals
       (NutritionReport.loadData (Resolved profile) (Resolved (Some (g :: rest))) s)
     = Some g) /\
  (forall fetched pg,
     fetched = None \/ fetched = Some [] ->
     NutritionReport.profileGoals profile = Some pg ->
     NutritionReport.userGoals
       (NutritionReport.loadData (Resolved profile) (Resolved fetched) s) = Some pg) /\
  (forall goalsResult,
     NutritionReport.userGoals (NutritionReport.loadData Rejected goalsResult s)
       = NutritionReport.userGoals s /\
     NutritionReport.userProfile (NutritionReport.loadData Rejected goalsResult s)
       = NutritionReport.userProfile s) /\
  NutritionReport.userGoals (NutritionReport.loadData (Resolved profile) Rejected s)
    = NutritionReport.userGoals s /\
  (forall goalsResult,
     NutritionReport.userProfile
       (NutritionReport.loadData (Resolved profile) goalsResult s) = profile).
Proof.
  split; [done|]. split.
  - intros fetched pg [->| ->] Hpg; cbn; by rewrite Hpg.
  - split; [done|]. split; [done|].
    intros [|[[|g rest]|]]; cbn; try reflexivity;
      by destruct (NutritionReport.profileGoals profile).
Qed.

Lemma loadData_goals_witness :
  NutritionReport.userGoals
    (NutritionReport.loadData
       (Resolved (Some (NutritionReport.mkProfile (Some 2000%Z))))
       (Resolved (Some [])) NutritionReport.initialState) = Some 2000%Z.
Proof.
  destruct (loadData_goals (@NutritionReport.initialState Z)
              (Some (NutritionReport.mkProfile (Some 2000%Z)))) as (_ & Hprofile & _).
  apply Hprofile; [by right|reflexivity].
Defined.

(** X18.  The number of days handed to the report is never zero or missing:
    a non-zero route parameter is passed on, and an absent parameter, [null]
    or [0] all give 30. *)
Theorem daysOf_default (params : option jsnum) :
  (exists x, NutritionReport.daysOf params = num x /\ x <> 0%Qc) /\
  (forall x, params = Some (num x) -> x <> 0%Qc ->
             NutritionReport.daysOf params = num x) /\
  (params = None \/ params = Some undefined \/ params = Some null \/
   params = Some (num 0%Qc) ->
   NutritionReport.daysOf params = num (Q2Qc 30)).
Proof.
  assert (Q2Qc 30 <> 0%Qc) as H30.
  { intros H. apply Qc_eqb_eq in H. discriminate H. }
  split; [|split].
  - unfold NutritionReport.daysOf, js_or.
    destruct params as [[| |x]|]; cbn [truthy]; try by eexists.
    destruct (Qc_eqb x 0) eqn:E; cbn [negb]; [by eexists|].
    exists x. split; [done|]. intros Hx. apply Qc_eqb_eq in Hx. congruence.
  - intros x -> Hx. unfold NutritionReport.daysOf. by apply js_or_nonzero_gen.
  - intros [->|[->|[->| ->]]]; reflexivity.
Qed.

Lemma daysOf_default_witness :
  NutritionReport.daysOf (Some (num 0%Qc)) = num (Q2Qc 30).
Proof.
  destruct (daysOf_default (Some (num 0%Qc))) as (_ & _ & Hdefault).
  apply Hdefault. by right; right; right.
Defined.

(** ** Further properties: server start-up *)

(** X19.  [initServer] initialises the schema only after a successful
    connection test, returns (and reports completion) exactly when both steps
    report success, and exits with code 1 exactly when a step reports failure;
    the exit is then the last thing that happens.  When an awaited call rejects
    there is neither an exit nor a completion message. *)
Theorem initServer_outcome (isConnected initialized : Promise bool) :
  let trace := fst (InitServer.initServer isConnected initialized) in
  let outcome := snd (InitServer.initServer isConnected initialized) in
  (In InitServer.InitializeDatabase trace <-> isConnected = Resolved true) /\
  (outcome = InitServer.Returned <->
   isConnected = Resolved true /\ initialized = Resolved true) /\
  (In (InitServer.ConsoleLog InitServer.completed) trace <->
   outcome = InitServer.Returned) /\
  (outcome = InitServer.Exited 1 <->
   isConnected = Resolved false \/
   (isConnected = Resolved true /\ initialized = Resolved false)) /\
  (outcome = InitServer.Exited 1 <-> last trace = Some (InitServer.ProcessExit 1)) /\
  (outcome = InitServer.Threw <->
   isConnected = Rejected \/ (isConnected = Resolved true /\ initialized = Rejected)) /\
  (forall code, In (InitServer.ProcessExit code) trace ->
                code = 1 /\ outcome = InitServer.Exited 1).
Proof.
  cbn zeta.
  destruct isConnected as [|[|]]; [| destruct initialized as [|[|]] |];
    cbn; repeat split; intros; try done;
    try (intuition (discriminate || congruence)).
Qed.

Lemma initServer_outcome_witness :
  snd (InitServer.initServer (Resolved true) (Resolved false)) = InitServer.Exited 1.
Proof.
  destruct (initServer_outcome (Resolved true) (Resolved false))
    as (_ & _ & _ & _ & _ & _ & Hexit).
  apply (Hexit 1). vm_compute. tauto.
Defined.

(** ** Further properties: the start-up effect of the application *)

Lemma configureHealth_cases (os : string) :
  (os = "ios"%string /\ App.configureHealth os = [App.ConfigureHealthKitForIOS]) \/
  (os = "android"%string /\ App.configureHealth os = [App.ConfigureGoogleFitForAndroid]) \/
  (os <> "ios"%string /\ os <> "android"%string /\ App.configureHealth os = []).
Proof.
  unfold App.configureHealth.
  destruct (String.eqb_spec os "ios") as [->|Hios]; [by left|].
  destruct (String.eqb_spec os "android") as [->|Handroid]; [by right; left|].
  by right; right.
Qed.

(** X20.  On mount the application configures at most one health service,
    HealthKit exactly on ios and Google Fit exactly on android; the water
    reminder settings are loaded exactly when [configureNotifications]
    returned, and reminders are scheduled exactly when, in addition, settings
    were delivered and are enabled. *)
Theorem effect_calls (env : App.Env) :
  (In App.ConfigureHealthKitForIOS (App.effect env) <-> App.OS env = "ios"%string) /\
  (In App.ConfigureGoogleFitForAndroid (App.effect env) <->
   App.OS env = "android"%string) /\
  (length (App.configureHealth (App.OS env)) <= 1)%nat /\
  (In App.LoadWaterReminderSettings (App.effect env) <->
   App.configureReturns env = true) /\
  (In App.ScheduleWaterReminders (App.effect env) <->
   App.configureReturns env = true /\
   exists settings, App.waterSettings env = Resolved (Some settings) /\
                    App.enabled settings = true).
Proof.
  destruct env as [os conf ws sched]. unfold App.effect.
  cbn [App.OS App.configureReturns App.waterSettings].
  assert (forall e, In e (App.configureHealth os ++
                          App.setupNotifications (App.mkEnv os conf ws sched)) <->
                    In e (App.configureHealth os) \/
                    In e (App.setupNotifications (App.mkEnv os conf ws sched))) as Hin.
  { intros e. apply in_app_iff. }
  rewrite !Hin. clear Hin.
  destruct (configureHealth_cases os) as [[-> ->]|[[-> ->]|(Hi & Ha & ->)]];
    destruct conf, ws as [|[[[|]]|]], sched; cbn; repeat split; try lia; intros;
    repeat match goal with
           | H : _ \/ _ |- _ => destruct H
           | H : _ /\ _ |- _ => destruct H
           | H : exists _, _ |- _ => destruct H
           | H : False |- _ => destruct H
           end;
    try done; try congruence; try tauto;
    try (right; tauto); try (by repeat (try eexists; split));
    try (by simplify_eq).
Qed.

Lemma effect_calls_witness :
  In App.ScheduleWaterReminders
     (App.effect (App.mkEnv "android" true (Resolved (Some (App.mkWaterSettings true))) true)).
Proof.
  apply (effect_calls
           (App.mkEnv "android" true (Resolved (Some (App.mkWaterSettings true))) true)).
  split; [reflexivity|]. exists (App.mkWaterSettings true). by split.
Defined.

(** ** Further properties: delivery order and range *)

Lemma logsByDate_complete (logs : list DailyLog) (k : string) (e : DailyLog) :
  In e logs -> log_date e = Some k -> k <> EmptyString ->
  is_Some (logsByDate logs !! k).
Proof.
  intros Hin Hd Hk.
  assert (truthy_str (Some k) = true) as Ht by (by destruct k).
  induction logs as [|x logs IH] using rev_ind; [destruct Hin|].
  rewrite logsByDate_snoc, Ht.
  destruct (datedOn k x) eqn:Ed; cbn [andb]; [by eexists|].
  apply in_app_or in Hin as [Hin|[<-|[]]]; [by apply IH|].
  apply datedOn_false in Ed. contradiction.
Qed.

(** X21.  When no two different delivered logs carry the same date, the
    series does not depend on the order of delivery: two deliveries with the
    same entries give the same series. *)
Theorem delivery_order_irrelevant (startDate now : Z) (logs logs' : list DailyLog)
    (dw : jsnum) :
  (forall e1 e2, In e1 logs -> In e2 logs -> log_date e1 = log_date e2 -> e1 = e2) ->
  (forall e, In e logs <-> In e logs') ->
  build startDate now logs dw = build startDate now logs' dw.
Proof.
  intros Huniq Hsame. apply build_ext_lookup. intros d _.
  set (k := JSDate.toISODate d).
  destruct (logsByDate logs !! k) as [e|] eqn:He;
    destruct (logsByDate logs' !! k) as [e'|] eqn:He'; try reflexivity.
  - apply logsByDate_sound in He as (Hin & Hd & _).
    apply logsByDate_sound in He' as (Hin' & Hd' & _).
    f_equal. apply Huniq; [done|by apply Hsame|congruence].
  - apply logsByDate_sound in He as (Hin & Hd & Hk).
    destruct (logsByDate_complete logs' k e) as [x Hx]; [by apply Hsame|done|done|].
    congruence.
  - apply logsByDate_sound in He' as (Hin' & Hd' & Hk).
    destruct (logsByDate_complete logs k e') as [x Hx]; [by apply Hsame|done|done|].
    congruence.
Qed.

Lemma delivery_order_irrelevant_witness :
  build Sample.D1 Sample.D3 Sample.both null =
  build Sample.D1 Sample.D3 (rev Sample.both) null.
Proof.
  apply delivery_order_irrelevant.
  - intros e1 e2 [<-|[<-|[]]] [<-|[<-|[]]] Hd; try reflexivity; discriminate Hd.
  - intros e. cbn. tauto.
Defined.


